(** * AP_MotorsHeli_Single: motor control class for a traditional helicopter

    A shallow embedding of [libraries/AP_Motors/AP_MotorsHeli_Single.h].
    The header carries the class layout, the configuration constants and the
    inline accessors; those are embedded as they are written.  The rotor
    speed controller ([AP_MotorsHeli_RSC]), the base class ([AP_MotorsHeli])
    and the out-of-line method bodies are not part of the header; where a
    property needs them they are modelled from the written specification and
    say so in their doc comment.

    Integers: [int16_t], [int8_t] and [uint16_t] values are carried as [Z].
    The comparisons in the header promote both operands to [int], so they are
    the mathematical comparisons on [Z]. *)

From Stdlib Require Import ZArith List Bool Lia.
From Stdlib Require Import Reals.
Import ListNotations.

Local Open Scope Z_scope.

(** ** Machine integers *)

Definition int16_range (z : Z) : Prop := -32768 <= z <= 32767.

(** ** Output boundary *)

(** The eight output channels of the board.  Only their identity matters
    here, so they are an enumeration rather than channel numbers. *)
Inductive Channel : Type :=
  | CH_1 | CH_2 | CH_3 | CH_4 | CH_5 | CH_6 | CH_7 | CH_8.

(** rsc and aux function output channels *)
Definition AP_MOTORS_HELI_SINGLE_RSC : Channel := CH_8.
Definition AP_MOTORS_HELI_SINGLE_AUX : Channel := CH_7.

(** Every value handed to the actuator layer, oldest first.  A method that
    writes to a channel appends to this log; a method that writes nothing
    leaves it as it found it. *)
Definition rcout_log : Type := list (Channel * Z).

(** ** Constants of the header *)

(** servo position defaults *)
Definition AP_MOTORS_HELI_SINGLE_SERVO1_POS : Z := -60.
Definition AP_MOTORS_HELI_SINGLE_SERVO2_POS : Z := 60.
Definition AP_MOTORS_HELI_SINGLE_SERVO3_POS : Z := 180.

(** swash type definitions *)
Definition AP_MOTORS_HELI_SINGLE_SWASH_CCPM : Z := 0.
Definition AP_MOTORS_HELI_SINGLE_SWASH_H1 : Z := 1.

(** tail types *)
Definition AP_MOTORS_HELI_SINGLE_TAILTYPE_SERVO : Z := 0.
Definition AP_MOTORS_HELI_SINGLE_TAILTYPE_SERVO_EXTGYRO : Z := 1.
Definition AP_MOTORS_HELI_SINGLE_TAILTYPE_DIRECTDRIVE_VARPITCH : Z := 2.
Definition AP_MOTORS_HELI_SINGLE_TAILTYPE_DIRECTDRIVE_FIXEDPITCH : Z := 3.

(** default direct-drive variable pitch speed *)
Definition AP_MOTOR_HELI_SINGLE_DDTAIL_DEFAULT : Z := 500.

(** default external gyro gain *)
Definition AP_MOTORS_HELI_SINGLE_EXT_GYRO_GAIN : Z := 350.

(** ramp increment of the direct drive tail rotor *)
Definition AP_MOTORS_HELI_SINGLE_TAIL_RAMP_INCREMENT : Z := 5.

(** ** Rotor speed controller *)

Module AP_MotorsHeli_RSC.

(** Modelled from the spec: the class AP_MotorsHeli_RSC
    (AP_MotorsHeli_RSC.h and its implementation) is missing from the
    sources.  The record follows the "rotor speed state" of the data model:
    a desired speed, an estimated speed, a critical speed threshold, an
    internal ramp position and the fixed increment of the ramp, together
    with the output channel the controller owns. *)
Record t : Type := mk {
  _servo_output_channel : Channel;
  _desired_speed : Z;
  _estimated_speed : Z;
  _critical_speed : Z;
  _ramp : Z;
  _ramp_increment : Z
}.

(** Modelled from the spec: get_estimated_speed(), which the header calls
    on its main rotor, "returns the controller's current feedback
    estimate". *)
Definition get_estimated_speed (r : t) : Z := _estimated_speed r.

(** Modelled from the spec: get_desired_speed(), which the header calls on
    its main rotor, returns the stored target. *)
Definition get_desired_speed (r : t) : Z := _desired_speed r.

(** Modelled from the spec: get_critical_speed(), which the header calls on
    its main rotor, returns the critical speed threshold. *)
Definition get_critical_speed (r : t) : Z := _critical_speed r.

(** Modelled from the spec: the clamp of a value to the range [lo, hi],
    "to the nearest valid value". *)
Definition constrain (v lo hi : Z) : Z :=
  if v <? lo then lo else if hi <? v then hi else v.

(** Modelled from the spec: set_desired_speed(v) "clamps v to [0,1000],
    stores as the ramp target; does not immediately change output". *)
Definition set_desired_speed (v : Z) (r : t) : t :=
  {| _servo_output_channel := _servo_output_channel r;
     _desired_speed := constrain v 0 1000;
     _estimated_speed := _estimated_speed r;
     _critical_speed := _critical_speed r;
     _ramp := _ramp r;
     _ramp_increment := _ramp_increment r |}.

(** Modelled from the spec: one step of the ramp, which "advances toward
    the desired value by a fixed increment per tick" and "never overshoots
    the desired value": towards [desired] by at most [inc], never past it. *)
Definition ramp_toward (ramp desired inc : Z) : Z :=
  if ramp <? desired then Z.min (ramp + inc) desired
  else if desired <? ramp then Z.max (ramp - inc) desired
  else ramp.

(** Modelled from the spec: update(), called once per tick, "advances the
    internal ramp value toward desired by at most one fixed increment" and
    "writes the ramp value to the owned output channel"; the ramp position
    "is clamped to [0, 1000]".  Without a tachometer the estimated speed
    mirrors the ramp value. *)
Definition update (r : t) (out : rcout_log) : t * rcout_log :=
  let ramp' :=
    constrain (ramp_toward (_ramp r) (_desired_speed r) (_ramp_increment r))
              0 1000 in
  ({| _servo_output_channel := _servo_output_channel r;
      _desired_speed := _desired_speed r;
      _estimated_speed := ramp';
      _critical_speed := _critical_speed r;
      _ramp := ramp';
      _ramp_increment := _ramp_increment r |},
   out ++ [(_servo_output_channel r, ramp')]).

(** [n] consecutive ticks with no call in between. *)
Fixpoint update_n (n : nat) (r : t) (out : rcout_log) : t * rcout_log :=
  match n with
  | O => (r, out)
  | S k => let (r', out') := update_n k r out in update r' out'
  end.

(** The state a controller is in between two ticks: both the ramp and its
    target are within the normalized range and the increment does not point
    backwards. *)
Definition wf (r : t) : Prop :=
  0 <= _ramp r <= 1000 /\ 0 <= _desired_speed r <= 1000 /\
  0 <= _ramp_increment r.

(** Modelled from the spec: a controller as "created at initialization",
    in the Stopped state with nothing commanded. *)
Definition init (ch : Channel) (critical inc : Z) : t :=
  {| _servo_output_channel := ch;
     _desired_speed := 0;
     _estimated_speed := 0;
     _critical_speed := critical;
     _ramp := 0;
     _ramp_increment := inc |}.


End AP_MotorsHeli_RSC.

(** ** The class *)

(** Modelled from the spec: the base class AP_MotorsHeli is missing from the
    sources.  Of its state only the setting the arming gate reads is kept:
    whether the main rotor is configured to require spin-up. *)
Record AP_MotorsHeli : Type := {
  _spin_up_required : bool
}.

(** The data members of the class, in the order of the header.  The
    [RC_Channel&] members are handles to channels of the output boundary.
    [_collective_yaw_effect] is an [AP_Float]; no accessor of the header
    computes with it and it is carried as a real number. *)
Record AP_MotorsHeli_Single : Type := {
  base : AP_MotorsHeli;
  _servo_aux : Channel;
  _servo_1 : Channel;
  _servo_2 : Channel;
  _servo_3 : Channel;
  _servo_4 : Channel;
  _main_rotor : AP_MotorsHeli_RSC.t;
  _tail_rotor : AP_MotorsHeli_RSC.t;
  _servo1_pos : Z;
  _servo2_pos : Z;
  _servo3_pos : Z;
  _tail_type : Z;
  _swash_type : Z;
  _ext_gyro_gain : Z;
  _phase_angle : Z;
  _collective_yaw_effect : R;
  _flybar_mode : Z;
  _direct_drive_tailspeed : Z
}.

(** Everything a method can read or change: the object and the log of the
    output boundary. *)
Record World : Type := {
  heli : AP_MotorsHeli_Single;
  rcout : rcout_log
}.

(** *** Methods as state transformers *)

Definition M (A : Type) : Type := World -> A * World.

Definition ret {A : Type} (a : A) : M A := fun w => (a, w).

Definition bind {A B : Type} (m : M A) (k : A -> M B) : M B :=
  fun w => let (a, w') := m w in k a w'.

Notation "x <- m ;; k" := (bind m (fun x => k))
  (at level 61, m at next level, right associativity).
Notation "m ;;; k" := (bind m (fun _ => k))
  (at level 61, right associativity).

(** A [const] method: reads the object, returns a value. *)
Definition gets {A : Type} (f : AP_MotorsHeli_Single -> A) : M A :=
  fun w => (f (heli w), w).

(** A method that assigns to members of the object. *)
Definition modify (f : AP_MotorsHeli_Single -> AP_MotorsHeli_Single) : M unit :=
  fun w => (tt, {| heli := f (heli w); rcout := rcout w |}).

(** A write to a channel of the output boundary. *)
Definition write (ch : Channel) (v : Z) : M unit :=
  fun w => (tt, {| heli := heli w; rcout := rcout w ++ [(ch, v)] |}).

Definition result {A : Type} (m : M A) (w : World) : A := fst (m w).
Definition after {A : Type} (m : M A) (w : World) : World := snd (m w).

(** *** Member updates *)

Definition set_ext_gyro_gain_field (v : Z) (s : AP_MotorsHeli_Single)
  : AP_MotorsHeli_Single :=
  {| base := base s;
     _servo_aux := _servo_aux s; _servo_1 := _servo_1 s;
     _servo_2 := _servo_2 s; _servo_3 := _servo_3 s; _servo_4 := _servo_4 s;
     _main_rotor := _main_rotor s; _tail_rotor := _tail_rotor s;
     _servo1_pos := _servo1_pos s; _servo2_pos := _servo2_pos s;
     _servo3_pos := _servo3_pos s; _tail_type := _tail_type s;
     _swash_type := _swash_type s; _ext_gyro_gain := v;
     _phase_angle := _phase_angle s;
     _collective_yaw_effect := _collective_yaw_effect s;
     _flybar_mode := _flybar_mode s;
     _direct_drive_tailspeed := _direct_drive_tailspeed s |}.

Definition set_tail_rotor_field (r : AP_MotorsHeli_RSC.t)
  (s : AP_MotorsHeli_Single) : AP_MotorsHeli_Single :=
  {| base := base s;
     _servo_aux := _servo_aux s; _servo_1 := _servo_1 s;
     _servo_2 := _servo_2 s; _servo_3 := _servo_3 s; _servo_4 := _servo_4 s;
     _main_rotor := _main_rotor s; _tail_rotor := r;
     _servo1_pos := _servo1_pos s; _servo2_pos := _servo2_pos s;
     _servo3_pos := _servo3_pos s; _tail_type := _tail_type s;
     _swash_type := _swash_type s; _ext_gyro_gain := _ext_gyro_gain s;
     _phase_angle := _phase_angle s;
     _collective_yaw_effect := _collective_yaw_effect s;
     _flybar_mode := _flybar_mode s;
     _direct_drive_tailspeed := _direct_drive_tailspeed s |}.

Definition set_tail_type_field (v : Z) (s : AP_MotorsHeli_Single)
  : AP_MotorsHeli_Single :=
  {| base := base s;
     _servo_aux := _servo_aux s; _servo_1 := _servo_1 s;
     _servo_2 := _servo_2 s; _servo_3 := _servo_3 s; _servo_4 := _servo_4 s;
     _main_rotor := _main_rotor s; _tail_rotor := _tail_rotor s;
     _servo1_pos := _servo1_pos s; _servo2_pos := _servo2_pos s;
     _servo3_pos := _servo3_pos s; _tail_type := v;
     _swash_type := _swash_type s; _ext_gyro_gain := _ext_gyro_gain s;
     _phase_angle := _phase_angle s;
     _collective_yaw_effect := _collective_yaw_effect s;
     _flybar_mode := _flybar_mode s;
     _direct_drive_tailspeed := _direct_drive_tailspeed s |}.

(** *** Inline accessors of the header *)

(** get_estimated_rotor_speed - gets estimated rotor speed as a number from
    0 ~ 1000 *)
Definition get_estimated_rotor_speed : M Z :=
  gets (fun s => AP_MotorsHeli_RSC.get_estimated_speed (_main_rotor s)).

(** get_desired_rotor_speed - gets target rotor speed as a number from
    0 ~ 1000 *)
Definition get_desired_rotor_speed : M Z :=
  gets (fun s => AP_MotorsHeli_RSC.get_desired_speed (_main_rotor s)).

(** rotor_speed_above_critical - return true if rotor speed is above that
    critical for flight *)
Definition rotor_speed_above_critical : M bool :=
  gets (fun s =>
    AP_MotorsHeli_RSC.get_estimated_speed (_main_rotor s)
      >? AP_MotorsHeli_RSC.get_critical_speed (_main_rotor s)).

(** tail_type - returns the tail type *)
Definition tail_type : M Z := gets _tail_type.

(** ext_gyro_gain - gets and sets external gyro gain as a pwm (1000~2000) *)
Definition ext_gyro_gain : M Z := gets _ext_gyro_gain.
Definition ext_gyro_gain_set (pwm : Z) : M unit :=
  modify (set_ext_gyro_gain_field pwm).

(** has_flybar - returns true if we have a mechanical flybar.  The member is
    an [AP_Int8]; returning it as [bool] yields true for every non-zero
    value. *)
Definition has_flybar : M bool := gets (fun s => negb (_flybar_mode s =? 0)).

(** get_phase_angle - returns phase angle *)
Definition get_phase_angle : M Z := gets _phase_angle.

(** supports_yaw_passthrough - returns true if we support yaw passthrough *)
Definition supports_yaw_passthrough : M bool :=
  gets (fun s => _tail_type s =? AP_MOTORS_HELI_SINGLE_TAILTYPE_SERVO_EXTGYRO).

(** *** Out-of-line methods *)

(** Modelled from the spec: the body of allow_arming() is missing from the
    sources (the header only declares it).  The spec gives it as "true only
    when the main rotor's estimated speed exceeds its critical threshold OR
    the rotor is configured to not require spin-up". *)
Definition allow_arming : M bool :=
  above <- rotor_speed_above_critical ;;
  gets (fun s => above || negb (_spin_up_required (base s))).

Definition Channel_eqb (a b : Channel) : bool :=
  match a, b with
  | CH_1, CH_1 | CH_2, CH_2 | CH_3, CH_3 | CH_4, CH_4
  | CH_5, CH_5 | CH_6, CH_6 | CH_7, CH_7 | CH_8, CH_8 => true
  | _, _ => false
  end.

(** Modelled from the spec: the body of get_motor_mask() is missing from the
    sources; the header declares it without [const].  The spec lists it with
    the pure reads and describes the mask as the channels the configuration
    claims: the three swash servos and the tail servo, and the auxiliary
    channel when the tail type is the external-gyro one.  The mask is given
    bit by bit, one bit per channel. *)
Definition get_motor_mask : M (Channel -> bool) :=
  gets (fun s ch =>
    Channel_eqb ch (_servo_1 s) || Channel_eqb ch (_servo_2 s)
    || Channel_eqb ch (_servo_3 s) || Channel_eqb ch (_servo_4 s)
    || ((_tail_type s =? AP_MOTORS_HELI_SINGLE_TAILTYPE_SERVO_EXTGYRO)
        && Channel_eqb ch (_servo_aux s))).

(** *** Tail control law *)

Section TailControlLaw.

(** The range of the tail actuator command.  The spec names the clamp but
    leaves its bounds to the actuator layer. *)
Variables yaw_min yaw_max : Z.

(** Modelled from the spec: a speed target handed to the tail rotor's own
    controller. *)
Definition set_tail_desired_speed (v : Z) : M unit :=
  modify (fun s =>
    set_tail_rotor_field
      (AP_MotorsHeli_RSC.set_desired_speed v (_tail_rotor s)) s).

(** Modelled from the spec: the plain servo law, "output =
    clamp(yaw_command + collective_feed_forward)"; the clamped command goes
    to the tail servo. *)
Definition servo_law (yaw_out : Z) : M Z :=
  let out := AP_MotorsHeli_RSC.constrain yaw_out yaw_min yaw_max in
  ch <- gets _servo_4 ;;
  write ch out ;;;
  ret out.

(** Modelled from the spec: the body of move_yaw() is missing from the
    sources.  [yaw_out] is the yaw command with the collective feed-forward
    already added by the caller.  Dispatch by tail type:
    - servo: output = clamp(yaw command + feed-forward);
    - servo with external gyro: the same, and the gyro gain goes to the
      auxiliary channel on every call;
    - direct-drive variable pitch: the same mixing for the blade pitch,
      while the tail rotor controller is held at the configured speed;
    - direct-drive fixed pitch: the command is the desired speed fed to the
      tail rotor controller;
    - anything else: the plain servo law. *)
Definition move_yaw (yaw_out : Z) : M Z :=
  ty <- tail_type ;;
  if ty =? AP_MOTORS_HELI_SINGLE_TAILTYPE_SERVO then
    servo_law yaw_out
  else if ty =? AP_MOTORS_HELI_SINGLE_TAILTYPE_SERVO_EXTGYRO then
    out <- servo_law yaw_out ;;
    aux <- gets _servo_aux ;;
    gain <- ext_gyro_gain ;;
    write aux gain ;;;
    ret out
  else if ty =? AP_MOTORS_HELI_SINGLE_TAILTYPE_DIRECTDRIVE_VARPITCH then
    out <- servo_law yaw_out ;;
    speed <- gets _direct_drive_tailspeed ;;
    set_tail_desired_speed speed ;;;
    ret out
  else if ty =? AP_MOTORS_HELI_SINGLE_TAILTYPE_DIRECTDRIVE_FIXEDPITCH then
    set_tail_desired_speed yaw_out ;;;
    gets (fun s => AP_MotorsHeli_RSC.get_desired_speed (_tail_rotor s))
  else
    servo_law yaw_out.

(** Modelled from the spec: the contract compute(yaw_command,
    collective_feed_forward); the two are summed and handed to
    [move_yaw]. *)
Definition TailControlLaw_compute (yaw_command collective_feed_forward : Z)
  : M Z :=
  move_yaw (yaw_command + collective_feed_forward).

End TailControlLaw.

Definition known_tail_type (ty : Z) : Prop :=
  ty = AP_MOTORS_HELI_SINGLE_TAILTYPE_SERVO
  \/ ty = AP_MOTORS_HELI_SINGLE_TAILTYPE_SERVO_EXTGYRO
  \/ ty = AP_MOTORS_HELI_SINGLE_TAILTYPE_DIRECTDRIVE_VARPITCH
  \/ ty = AP_MOTORS_HELI_SINGLE_TAILTYPE_DIRECTDRIVE_FIXEDPITCH.

(** The world with the tail type parameter set to [ty]. *)
Definition with_tail_type (ty : Z) (w : World) : World :=
  {| heli := set_tail_type_field ty (heli w); rcout := rcout w |}.


(** ** Example states *)

(** A helicopter with the default parameters of the header, both rotors
    stopped; the main rotor has a critical speed of 500. *)
Definition example_heli : AP_MotorsHeli_Single :=
  {| base := {| _spin_up_required := true |};
     _servo_aux := CH_7; _servo_1 := CH_1; _servo_2 := CH_2;
     _servo_3 := CH_3; _servo_4 := CH_4;
     _main_rotor := AP_MotorsHeli_RSC.init AP_MOTORS_HELI_SINGLE_RSC 500 5;
     _tail_rotor :=
       AP_MotorsHeli_RSC.init AP_MOTORS_HELI_SINGLE_AUX 500
         AP_MOTORS_HELI_SINGLE_TAIL_RAMP_INCREMENT;
     _servo1_pos := AP_MOTORS_HELI_SINGLE_SERVO1_POS;
     _servo2_pos := AP_MOTORS_HELI_SINGLE_SERVO2_POS;
     _servo3_pos := AP_MOTORS_HELI_SINGLE_SERVO3_POS;
     _tail_type := AP_MOTORS_HELI_SINGLE_TAILTYPE_SERVO;
     _swash_type := AP_MOTORS_HELI_SINGLE_SWASH_CCPM;
     _ext_gyro_gain := AP_MOTORS_HELI_SINGLE_EXT_GYRO_GAIN;
     _phase_angle := 0;
     _collective_yaw_effect := 0%R;
     _flybar_mode := 1;
     _direct_drive_tailspeed := AP_MOTOR_HELI_SINGLE_DDTAIL_DEFAULT |}.

Definition example_world : World := {| heli := example_heli; rcout := [] |}.

(** The main rotor with an estimated speed of exactly its critical speed. *)
Definition rotor_at_critical : AP_MotorsHeli_RSC.t :=
  {| AP_MotorsHeli_RSC._servo_output_channel := AP_MOTORS_HELI_SINGLE_RSC;
     AP_MotorsHeli_RSC._desired_speed := 1000;
     AP_MotorsHeli_RSC._estimated_speed := 500;
     AP_MotorsHeli_RSC._critical_speed := 500;
     AP_MotorsHeli_RSC._ramp := 500;
     AP_MotorsHeli_RSC._ramp_increment := 5 |}.

Definition set_main_rotor_field (r : AP_MotorsHeli_RSC.t)
  (s : AP_MotorsHeli_Single) : AP_MotorsHeli_Single :=
  {| base := base s;
     _servo_aux := _servo_aux s; _servo_1 := _servo_1 s;
     _servo_2 := _servo_2 s; _servo_3 := _servo_3 s; _servo_4 := _servo_4 s;
     _main_rotor := r; _tail_rotor := _tail_rotor s;
     _servo1_pos := _servo1_pos s; _servo2_pos := _servo2_pos s;
     _servo3_pos := _servo3_pos s; _tail_type := _tail_type s;
     _swash_type := _swash_type s; _ext_gyro_gain := _ext_gyro_gain s;
     _phase_angle := _phase_angle s;
     _collective_yaw_effect := _collective_yaw_effect s;
     _flybar_mode := _flybar_mode s;
     _direct_drive_tailspeed := _direct_drive_tailspeed s |}.

Definition world_at_critical : World :=
  {| heli := set_main_rotor_field rotor_at_critical example_heli;
     rcout := [] |}.

(** Two objects that differ at most in the state of the tail rotor
    controller. *)
Definition same_but_tail_rotor (s1 s2 : AP_MotorsHeli_Single) : Prop :=
  base s1 = base s2
  /\ _servo_aux s1 = _servo_aux s2 /\ _servo_1 s1 = _servo_1 s2
  /\ _servo_2 s1 = _servo_2 s2 /\ _servo_3 s1 = _servo_3 s2
  /\ _servo_4 s1 = _servo_4 s2
  /\ _main_rotor s1 = _main_rotor s2
  /\ _servo1_pos s1 = _servo1_pos s2 /\ _servo2_pos s1 = _servo2_pos s2
  /\ _servo3_pos s1 = _servo3_pos s2 /\ _tail_type s1 = _tail_type s2
  /\ _swash_type s1 = _swash_type s2
  /\ _ext_gyro_gain s1 = _ext_gyro_gain s2
  /\ _phase_angle s1 = _phase_angle s2
  /\ _collective_yaw_effect s1 = _collective_yaw_effect s2
  /\ _flybar_mode s1 = _flybar_mode s2
  /\ _direct_drive_tailspeed s1 = _direct_drive_tailspeed s2.

(** A method is a pure read when it hands back the world it was given: the
    object, both rotor controllers included, and the output log. *)
Definition pure_read {A : Type} (m : M A) : Prop :=
  forall w : World, after m w = w.

(** * Properties *)

(** ** Shared lemmas *)

Lemma gets_result {A : Type} (f : AP_MotorsHeli_Single -> A) (w : World) :
  result (gets f) w = f (heli w).
Proof. reflexivity. Qed.

Lemma gets_pure_read {A : Type} (f : AP_MotorsHeli_Single -> A) :
  pure_read (gets f).
Proof. intros w. reflexivity. Qed.

Lemma constrain_bounds (v lo hi : Z) :
  lo <= hi -> lo <= AP_MotorsHeli_RSC.constrain v lo hi <= hi.
Proof.
  intros Hle. unfold AP_MotorsHeli_RSC.constrain.
  destruct (v <? lo) eqn:E1; [lia|].
  destruct (hi <? v) eqn:E2; lia.
Qed.

Lemma constrain_id (v lo hi : Z) :
  lo <= v <= hi -> AP_MotorsHeli_RSC.constrain v lo hi = v.
Proof.
  intros Hin. unfold AP_MotorsHeli_RSC.constrain.
  destruct (v <? lo) eqn:E1; [lia|].
  destruct (hi <? v) eqn:E2; lia.
Qed.

(** ** The critical-speed comparison *)

(** C1, as stated, fails at the boundary: with the estimated speed of the
    main rotor equal to its critical speed (both 500) the speed is not below
    the threshold, yet rotor_speed_above_critical() returns false. *)
Lemma rotor_speed_at_critical_is_not_above :
  result get_estimated_rotor_speed world_at_critical = 500
  /\ AP_MotorsHeli_RSC.get_critical_speed (_main_rotor (heli world_at_critical))
     = 500
  /\ ~ (result get_estimated_rotor_speed world_at_critical
        < AP_MotorsHeli_RSC.get_critical_speed
            (_main_rotor (heli world_at_critical)))
  /\ result rotor_speed_above_critical world_at_critical = false.
Proof.
  repeat split; try reflexivity.
  cbn. lia.
Qed.

(** C1, amended: rotor_speed_above_critical() returns true exactly when the
    estimated speed of the main rotor is strictly greater than its critical
    speed, and false exactly when it is less than or equal to it; the
    boundary, estimated equal to critical, is on the false side. *)
Theorem rotor_speed_above_critical_strict (w : World) :
  (result rotor_speed_above_critical w = true
   <-> AP_MotorsHeli_RSC.get_critical_speed (_main_rotor (heli w))
       < result get_estimated_rotor_speed w)
  /\ (result rotor_speed_above_critical w = false
      <-> result get_estimated_rotor_speed w
          <= AP_MotorsHeli_RSC.get_critical_speed (_main_rotor (heli w))).
Proof.
  unfold rotor_speed_above_critical, get_estimated_rotor_speed.
  rewrite !gets_result.
  set (e := AP_MotorsHeli_RSC.get_estimated_speed (_main_rotor (heli w))).
  set (c := AP_MotorsHeli_RSC.get_critical_speed (_main_rotor (heli w))).
  destruct (Z.gtb_spec e c) as [Hgt | Hle]; split; split; intros H;
    try discriminate; try reflexivity; lia.
Qed.

(** ** Yaw passthrough *)

(** C7: supports_yaw_passthrough() returns true if and only if the tail type
    is the servo-with-external-gyro one, and false for every other value of
    the parameter, recognised or not. *)
Theorem supports_yaw_passthrough_iff_extgyro (w : World) :
  (result supports_yaw_passthrough w = true
   <-> _tail_type (heli w) = AP_MOTORS_HELI_SINGLE_TAILTYPE_SERVO_EXTGYRO)
  /\ (result supports_yaw_passthrough w = false
      <-> _tail_type (heli w) <> AP_MOTORS_HELI_SINGLE_TAILTYPE_SERVO_EXTGYRO).
Proof.
  unfold supports_yaw_passthrough. rewrite gets_result.
  destruct (Z.eqb_spec (_tail_type (heli w))
              AP_MOTORS_HELI_SINGLE_TAILTYPE_SERVO_EXTGYRO) as [Heq | Hne];
    split; split; intros H; try discriminate; try reflexivity;
    try assumption; contradiction.
Qed.

(** ** Queries are reads *)

(** C8: each query exposed upward hands back the world it was given: the
    object with both rotor speed controllers and every parameter, and the
    log of the output boundary, to which nothing is appended. *)
Theorem queries_are_pure_reads :
  pure_read get_estimated_rotor_speed
  /\ pure_read get_desired_rotor_speed
  /\ pure_read rotor_speed_above_critical
  /\ pure_read tail_type
  /\ pure_read ext_gyro_gain
  /\ pure_read has_flybar
  /\ pure_read get_phase_angle
  /\ pure_read supports_yaw_passthrough
  /\ pure_read get_motor_mask.
Proof.
  repeat split; apply gets_pure_read.
Qed.

(** ** External gyro gain *)

(** C9: for every int16 value, the getter after the setter returns the value
    that was set; nothing clamps it to 1000~2000. *)
Theorem ext_gyro_gain_set_get (v : Z) (w : World) :
  int16_range v ->
  result ext_gyro_gain (after (ext_gyro_gain_set v) w) = v.
Proof.
  intros _. reflexivity.
Qed.

Lemma ext_gyro_gain_set_get_witness :
  int16_range (-32768)
  /\ result ext_gyro_gain (after (ext_gyro_gain_set (-32768)) example_world)
     = -32768.
Proof.
  split.
  - unfold int16_range. lia.
  - apply ext_gyro_gain_set_get. unfold int16_range. lia.
Defined.

(** ** Rotor speed queries and the tail rotor *)

Lemma main_rotor_queries_agree (w1 w2 : World) :
  _main_rotor (heli w1) = _main_rotor (heli w2) ->
  result get_estimated_rotor_speed w1 = result get_estimated_rotor_speed w2
  /\ result get_desired_rotor_speed w1 = result get_desired_rotor_speed w2
  /\ result rotor_speed_above_critical w1
     = result rotor_speed_above_critical w2.
Proof.
  intros Hmain.
  unfold get_estimated_rotor_speed, get_desired_rotor_speed,
    rotor_speed_above_critical.
  rewrite !gets_result, Hmain. auto.
Qed.

(** C10: two states of the object that differ only in the tail rotor
    controller give the same answer to get_estimated_rotor_speed,
    get_desired_rotor_speed and rotor_speed_above_critical. *)
Theorem rotor_speed_queries_ignore_tail_rotor (w1 w2 : World) :
  same_but_tail_rotor (heli w1) (heli w2) ->
  result get_estimated_rotor_speed w1 = result get_estimated_rotor_speed w2
  /\ result get_desired_rotor_speed w1 = result get_desired_rotor_speed w2
  /\ result rotor_speed_above_critical w1
     = result rotor_speed_above_critical w2.
Proof.
  intros Hsame. apply main_rotor_queries_agree.
  unfold same_but_tail_rotor in Hsame. tauto.
Qed.

Lemma rotor_speed_queries_ignore_tail_rotor_witness :
  let w2 := {| heli := set_tail_rotor_field rotor_at_critical example_heli;
               rcout := [(CH_7, 500)] |} in
  _tail_rotor (heli example_world) <> _tail_rotor (heli w2)
  /\ same_but_tail_rotor (heli example_world) (heli w2)
  /\ result get_estimated_rotor_speed example_world
     = result get_estimated_rotor_speed w2
  /\ result get_desired_rotor_speed example_world
     = result get_desired_rotor_speed w2
  /\ result rotor_speed_above_critical example_world
     = result rotor_speed_above_critical w2.
Proof.
  intros w2.
  assert (Hsame : same_but_tail_rotor (heli example_world) (heli w2))
    by (unfold same_but_tail_rotor; cbn; tauto).
  split; [cbn; discriminate|].
  split; [exact Hsame|].
  exact (rotor_speed_queries_ignore_tail_rotor example_world w2 Hsame).
Defined.

(** ** The arming gate *)

Lemma allow_arming_run (w : World) :
  result allow_arming w
  = result rotor_speed_above_critical w
    || negb (_spin_up_required (base (heli w))).
Proof. reflexivity. Qed.

(** The arming gate reads the main rotor and the spin-up setting only, so
    the tail rotor controller has no influence on it either. *)
Lemma allow_arming_ignores_tail_rotor (w1 w2 : World) :
  same_but_tail_rotor (heli w1) (heli w2) ->
  result allow_arming w1 = result allow_arming w2.
Proof.
  intros Hsame. rewrite !allow_arming_run.
  destruct Hsame as (Hbase & _ & _ & _ & _ & _ & Hmain & _).
  destruct (main_rotor_queries_agree w1 w2 Hmain) as (_ & _ & Habove).
  rewrite Habove, Hbase. reflexivity.
Qed.

(** C2: allow_arming() returns true only when the estimated speed of the
    main rotor exceeds its critical speed or the main rotor is configured to
    not require spin-up; when the estimated speed does not exceed the
    critical speed and spin-up is required, it returns false. *)
Theorem allow_arming_gate (w : World) :
  (result allow_arming w = true ->
   AP_MotorsHeli_RSC.get_critical_speed (_main_rotor (heli w))
     < result get_estimated_rotor_speed w
   \/ _spin_up_required (base (heli w)) = false)
  /\ (result get_estimated_rotor_speed w
        <= AP_MotorsHeli_RSC.get_critical_speed (_main_rotor (heli w)) ->
      _spin_up_required (base (heli w)) = true ->
      result allow_arming w = false).
Proof.
  unfold allow_arming, rotor_speed_above_critical, get_estimated_rotor_speed,
    result, bind, gets. cbn.
  set (e := AP_MotorsHeli_RSC.get_estimated_speed (_main_rotor (heli w))).
  set (c := AP_MotorsHeli_RSC.get_critical_speed (_main_rotor (heli w))).
  destruct (Z.gtb_spec e c) as [Hgt | Hle];
    destruct (_spin_up_required (base (heli w))); cbn; split; intros;
    try discriminate; try reflexivity; try lia; auto.
Qed.

Lemma allow_arming_gate_witness :
  result get_estimated_rotor_speed example_world
    <= AP_MotorsHeli_RSC.get_critical_speed (_main_rotor (heli example_world))
  /\ _spin_up_required (base (heli example_world)) = true
  /\ result allow_arming example_world = false.
Proof.
  assert (H1 : result get_estimated_rotor_speed example_world
               <= AP_MotorsHeli_RSC.get_critical_speed
                    (_main_rotor (heli example_world))) by (cbn; lia).
  split; [exact H1|]. split; [reflexivity|].
  exact (proj2 (allow_arming_gate example_world) H1 eq_refl).
Defined.

(** ** The tail control law *)

Lemma move_yaw_servo (yaw_min yaw_max yaw_out : Z) (w : World) :
  _tail_type (heli w) = AP_MOTORS_HELI_SINGLE_TAILTYPE_SERVO ->
  move_yaw yaw_min yaw_max yaw_out w = servo_law yaw_min yaw_max yaw_out w.
Proof.
  intros Hty. unfold move_yaw, tail_type, bind, gets. rewrite Hty.
  reflexivity.
Qed.

Lemma move_yaw_unknown (yaw_min yaw_max yaw_out : Z) (w : World) :
  ~ known_tail_type (_tail_type (heli w)) ->
  move_yaw yaw_min yaw_max yaw_out w = servo_law yaw_min yaw_max yaw_out w.
Proof.
  intros Hunk. unfold move_yaw, tail_type, bind, gets.
  unfold known_tail_type in Hunk.
  destruct (Z.eqb_spec (_tail_type (heli w))
              AP_MOTORS_HELI_SINGLE_TAILTYPE_SERVO); [tauto|].
  destruct (Z.eqb_spec (_tail_type (heli w))
              AP_MOTORS_HELI_SINGLE_TAILTYPE_SERVO_EXTGYRO); [tauto|].
  destruct (Z.eqb_spec (_tail_type (heli w))
              AP_MOTORS_HELI_SINGLE_TAILTYPE_DIRECTDRIVE_VARPITCH); [tauto|].
  destruct (Z.eqb_spec (_tail_type (heli w))
              AP_MOTORS_HELI_SINGLE_TAILTYPE_DIRECTDRIVE_FIXEDPITCH); [tauto|].
  reflexivity.
Qed.

Lemma servo_law_run (yaw_min yaw_max yaw_out : Z) (w : World) :
  servo_law yaw_min yaw_max yaw_out w
  = (AP_MotorsHeli_RSC.constrain yaw_out yaw_min yaw_max,
     {| heli := heli w;
        rcout := rcout w
                 ++ [(_servo_4 (heli w),
                      AP_MotorsHeli_RSC.constrain yaw_out yaw_min yaw_max)] |}).
Proof. reflexivity. Qed.

(** C5: with a tail type that is none of the four recognised values, the
    tail control law does what it does for the plain servo type: it returns
    the clamped sum of yaw command and feed-forward, appends exactly that
    value for the tail servo to the output log and leaves the object as it
    was.  It is a total function, so there is no error case, and the value it
    puts out is the clamped command, not a forced zero. *)
Theorem unknown_tail_type_falls_back_to_servo
  (yaw_min yaw_max ty yaw_command collective_feed_forward : Z) (w : World) :
  ~ known_tail_type ty ->
  let out :=
    AP_MotorsHeli_RSC.constrain (yaw_command + collective_feed_forward)
      yaw_min yaw_max in
  let run_unknown :=
    TailControlLaw_compute yaw_min yaw_max yaw_command collective_feed_forward
      (with_tail_type ty w) in
  let run_servo :=
    TailControlLaw_compute yaw_min yaw_max yaw_command collective_feed_forward
      (with_tail_type AP_MOTORS_HELI_SINGLE_TAILTYPE_SERVO w) in
  fst run_unknown = fst run_servo
  /\ rcout (snd run_unknown) = rcout (snd run_servo)
  /\ heli (snd run_unknown) = set_tail_type_field ty (heli (snd run_servo))
  /\ fst run_unknown = out
  /\ rcout (snd run_unknown) = rcout w ++ [(_servo_4 (heli w), out)]
  /\ heli (snd run_unknown) = heli (with_tail_type ty w).
Proof.
  intros Hunk out run_unknown run_servo.
  subst run_unknown run_servo. unfold TailControlLaw_compute.
  rewrite move_yaw_unknown by exact Hunk.
  rewrite move_yaw_servo by reflexivity.
  rewrite !servo_law_run. cbn. repeat split.
Qed.

Lemma unknown_tail_type_falls_back_to_servo_witness :
  ~ known_tail_type 7
  /\ fst (TailControlLaw_compute (-1000) 1000 800 50
            (with_tail_type 7 example_world)) = 850
  /\ rcout (snd (TailControlLaw_compute (-1000) 1000 800 50
                   (with_tail_type 7 example_world))) = [(CH_4, 850)].
Proof.
  assert (Hunk : ~ known_tail_type 7).
  { unfold known_tail_type. intros [H | [H | [H | H]]]; discriminate H. }
  split; [exact Hunk|].
  pose proof (unknown_tail_type_falls_back_to_servo (-1000) 1000 7 800 50
                example_world Hunk) as H.
  cbv zeta in H.
  destruct H as (_ & _ & _ & Hout & Hlog & _).
  split; [exact Hout | exact Hlog].
Defined.

(** ** The ramp of the rotor speed controller *)

Section Ramp.

Import AP_MotorsHeli_RSC.

Lemma ramp_toward_up (ramp desired inc : Z) :
  0 <= inc -> ramp <= desired ->
  ramp <= ramp_toward ramp desired inc <= desired
  /\ desired - ramp_toward ramp desired inc
     = Z.max 0 (desired - ramp - inc).
Proof.
  intros Hinc Hle. unfold ramp_toward.
  destruct (Z.ltb_spec ramp desired) as [Hlt | Hge].
  - lia.
  - destruct (Z.ltb_spec desired ramp); lia.
Qed.

Lemma ramp_toward_down (ramp desired inc : Z) :
  0 <= inc -> desired <= ramp ->
  desired <= ramp_toward ramp desired inc <= ramp
  /\ ramp_toward ramp desired inc - desired
     = Z.max 0 (ramp - desired - inc).
Proof.
  intros Hinc Hle. unfold ramp_toward.
  destruct (Z.ltb_spec ramp desired) as [Hlt | Hge].
  - lia.
  - destruct (Z.ltb_spec desired ramp); lia.
Qed.

Lemma update_desired (r : t) (out : rcout_log) :
  _desired_speed (fst (update r out)) = _desired_speed r.
Proof. reflexivity. Qed.

Lemma update_increment (r : t) (out : rcout_log) :
  _ramp_increment (fst (update r out)) = _ramp_increment r.
Proof. reflexivity. Qed.

Lemma update_ramp (r : t) (out : rcout_log) :
  wf r ->
  _ramp (fst (update r out))
  = ramp_toward (_ramp r) (_desired_speed r) (_ramp_increment r).
Proof.
  intros (Hramp & Hdes & Hinc). cbn.
  apply constrain_id.
  destruct (Z.le_ge_cases (_ramp r) (_desired_speed r)) as [Hle | Hge].
  - pose proof (ramp_toward_up _ _ _ Hinc Hle). lia.
  - pose proof (ramp_toward_down _ _ _ Hinc Hge). lia.
Qed.

Lemma update_wf (r : t) (out : rcout_log) :
  wf r -> wf (fst (update r out)).
Proof.
  intros Hwf. pose proof Hwf as (Hramp & Hdes & Hinc).
  unfold wf. rewrite update_desired, update_increment.
  split; [|split; assumption].
  cbn. apply constrain_bounds. lia.
Qed.

Lemma update_n_succ (n : nat) (r : t) (out : rcout_log) :
  update_n (S n) r out
  = update (fst (update_n n r out)) (snd (update_n n r out)).
Proof. cbn. destruct (update_n n r out). reflexivity. Qed.

Lemma update_n_wf (n : nat) (r : t) (out : rcout_log) :
  wf r -> wf (fst (update_n n r out)).
Proof.
  intros Hwf. induction n as [| n IH].
  - exact Hwf.
  - rewrite update_n_succ. apply update_wf, IH.
Qed.

Lemma update_n_desired (n : nat) (r : t) (out : rcout_log) :
  _desired_speed (fst (update_n n r out)) = _desired_speed r.
Proof.
  induction n as [| n IH].
  - reflexivity.
  - rewrite update_n_succ, update_desired. exact IH.
Qed.

Lemma update_n_increment (n : nat) (r : t) (out : rcout_log) :
  _ramp_increment (fst (update_n n r out)) = _ramp_increment r.
Proof.
  induction n as [| n IH].
  - reflexivity.
  - rewrite update_n_succ, update_increment. exact IH.
Qed.

(** The ramp of tick [n+1] in terms of the ramp of tick [n]. *)
Lemma update_n_ramp_succ (n : nat) (r : t) (out : rcout_log) :
  wf r ->
  _ramp (fst (update_n (S n) r out))
  = ramp_toward (_ramp (fst (update_n n r out))) (_desired_speed r)
      (_ramp_increment r).
Proof.
  intros Hwf. rewrite update_n_succ.
  rewrite update_ramp by (apply update_n_wf; exact Hwf).
  rewrite update_n_desired, update_n_increment. reflexivity.
Qed.

(** Started below the target, the ramp stays below it and the remaining
    distance shrinks by one increment per tick until it is zero. *)
Lemma update_n_from_below (n : nat) (r : t) (out : rcout_log) :
  wf r -> _ramp r <= _desired_speed r ->
  _ramp (fst (update_n n r out)) <= _desired_speed r
  /\ _desired_speed r - _ramp (fst (update_n n r out))
     = Z.max 0 (_desired_speed r - _ramp r
                - Z.of_nat n * _ramp_increment r).
Proof.
  intros Hwf Hle. pose proof Hwf as (Hramp & Hdes & Hinc).
  induction n as [| n [IH1 IH2]].
  - cbn. lia.
  - rewrite update_n_ramp_succ by exact Hwf.
    pose proof (ramp_toward_up _ _ _ Hinc IH1) as [Hb Hd].
    split; [lia|]. rewrite Hd, IH2. nia.
Qed.

Lemma update_n_from_above (n : nat) (r : t) (out : rcout_log) :
  wf r -> _desired_speed r <= _ramp r ->
  _desired_speed r <= _ramp (fst (update_n n r out))
  /\ _ramp (fst (update_n n r out)) - _desired_speed r
     = Z.max 0 (_ramp r - _desired_speed r
                - Z.of_nat n * _ramp_increment r).
Proof.
  intros Hwf Hle. pose proof Hwf as (Hramp & Hdes & Hinc).
  induction n as [| n [IH1 IH2]].
  - cbn. lia.
  - rewrite update_n_ramp_succ by exact Hwf.
    pose proof (ramp_toward_down _ _ _ Hinc IH1) as [Hb Hd].
    split; [lia|]. rewrite Hd, IH2. nia.
Qed.

Lemma set_desired_speed_wf (v : Z) (r : t) :
  0 <= _ramp r <= 1000 -> 0 <= _ramp_increment r ->
  wf (set_desired_speed v r).
Proof.
  intros Hramp Hinc. unfold wf. cbn.
  pose proof (constrain_bounds v 0 1000). lia.
Qed.

End Ramp.

(** C3: for a rotor speed controller (the main rotor's as well as the tail
    rotor's) whose target stays fixed, after any number of update() calls the
    ramp position lies in [0, 1000]; the next call moves it no further from
    the target and never across it; once the ramp equals the target the next
    call leaves it there; and with a positive increment the target is reached
    as soon as the ticks cover the initial distance. *)
Theorem ramp_never_overshoots_and_holds
  (r : AP_MotorsHeli_RSC.t) (out : rcout_log) (n : nat) :
  AP_MotorsHeli_RSC.wf r ->
  let desired := AP_MotorsHeli_RSC._desired_speed r in
  let ramp_0 := AP_MotorsHeli_RSC._ramp r in
  let r_n := fst (AP_MotorsHeli_RSC.update_n n r out) in
  let ramp_n := AP_MotorsHeli_RSC._ramp r_n in
  let ramp_next :=
    AP_MotorsHeli_RSC._ramp (fst (AP_MotorsHeli_RSC.update_n (S n) r out)) in
  AP_MotorsHeli_RSC._desired_speed r_n = desired
  /\ 0 <= ramp_n <= 1000
  /\ (ramp_0 <= desired -> ramp_n <= ramp_next <= desired)
  /\ (desired <= ramp_0 -> desired <= ramp_next <= ramp_n)
  /\ (ramp_n = desired -> ramp_next = desired)
  /\ (0 < AP_MotorsHeli_RSC._ramp_increment r ->
      Z.abs (desired - ramp_0)
        <= Z.of_nat n * AP_MotorsHeli_RSC._ramp_increment r ->
      ramp_n = desired).
Proof.
  intros Hwf desired ramp_0 r_n ramp_n ramp_next.
  pose proof Hwf as (Hramp & Hdes & Hinc).
  pose proof (update_n_wf n r out Hwf) as (Hramp_n & _ & _).
  assert (Hnext : ramp_next
                  = AP_MotorsHeli_RSC.ramp_toward ramp_n desired
                      (AP_MotorsHeli_RSC._ramp_increment r))
    by (apply update_n_ramp_succ; exact Hwf).
  split; [apply update_n_desired|].
  split; [exact Hramp_n|].
  split; [|split; [|split]].
  - intros Hle.
    pose proof (update_n_from_below n r out Hwf Hle) as [Hb _].
    pose proof (ramp_toward_up _ _ _ Hinc Hb) as [Hstep _].
    rewrite Hnext. exact Hstep.
  - intros Hge.
    pose proof (update_n_from_above n r out Hwf Hge) as [Hb _].
    pose proof (ramp_toward_down _ _ _ Hinc Hb) as [Hstep _].
    rewrite Hnext. exact Hstep.
  - intros Heq. rewrite Hnext, Heq.
    unfold AP_MotorsHeli_RSC.ramp_toward. rewrite Z.ltb_irrefl. reflexivity.
  - intros Hpos Hdist.
    destruct (Z.le_ge_cases ramp_0 desired) as [Hle | Hge].
    + pose proof (update_n_from_below n r out Hwf Hle) as [_ Hd].
      fold desired ramp_0 in Hd. fold r_n in Hd. fold ramp_n in Hd. lia.
    + pose proof (update_n_from_above n r out Hwf Hge) as [_ Hd].
      fold desired ramp_0 in Hd. fold r_n in Hd. fold ramp_n in Hd. lia.
Qed.

Lemma ramp_never_overshoots_and_holds_witness :
  let r := AP_MotorsHeli_RSC.set_desired_speed 1200
             (AP_MotorsHeli_RSC.init AP_MOTORS_HELI_SINGLE_RSC 500 300) in
  AP_MotorsHeli_RSC.wf r
  /\ AP_MotorsHeli_RSC._ramp (fst (AP_MotorsHeli_RSC.update_n 3 r [])) = 900
  /\ AP_MotorsHeli_RSC._ramp (fst (AP_MotorsHeli_RSC.update_n 4 r [])) = 1000
  /\ (AP_MotorsHeli_RSC._ramp (fst (AP_MotorsHeli_RSC.update_n 3 r []))
      <= AP_MotorsHeli_RSC._ramp (fst (AP_MotorsHeli_RSC.update_n 4 r []))
      <= AP_MotorsHeli_RSC._desired_speed r).
Proof.
  intros r.
  assert (Hwf : AP_MotorsHeli_RSC.wf r)
    by (unfold AP_MotorsHeli_RSC.wf; cbn; lia).
  split; [exact Hwf|].
  split; [reflexivity|]. split; [reflexivity|].
  pose proof (ramp_never_overshoots_and_holds r [] 3 Hwf) as H.
  cbv zeta in H. destruct H as (_ & _ & Hup & _).
  apply Hup. cbn. lia.
Defined.

(** ** The tail ramp increment *)



(** ** Further properties of the inline accessors *)

(** X1: the ext_gyro_gain setter assigns to [_ext_gyro_gain] and to nothing
    else: the output log gets no entry (the gain is not sent to the auxiliary
    channel by the setter), both rotor speed controllers and every other
    parameter keep their value, and so each other inline accessor answers
    after the call what it answered before. *)
Theorem ext_gyro_gain_set_frame (pwm : Z) (w : World) :
  let w' := after (ext_gyro_gain_set pwm) w in
  rcout w' = rcout w
  /\ (base (heli w') = base (heli w)
      /\ _servo_aux (heli w') = _servo_aux (heli w)
      /\ _servo_1 (heli w') = _servo_1 (heli w)
      /\ _servo_2 (heli w') = _servo_2 (heli w)
      /\ _servo_3 (heli w') = _servo_3 (heli w)
      /\ _servo_4 (heli w') = _servo_4 (heli w)
      /\ _main_rotor (heli w') = _main_rotor (heli w)
      /\ _tail_rotor (heli w') = _tail_rotor (heli w)
      /\ _servo1_pos (heli w') = _servo1_pos (heli w)
      /\ _servo2_pos (heli w') = _servo2_pos (heli w)
      /\ _servo3_pos (heli w') = _servo3_pos (heli w)
      /\ _tail_type (heli w') = _tail_type (heli w)
      /\ _swash_type (heli w') = _swash_type (heli w)
      /\ _phase_angle (heli w') = _phase_angle (heli w)
      /\ _collective_yaw_effect (heli w') = _collective_yaw_effect (heli w)
      /\ _flybar_mode (heli w') = _flybar_mode (heli w)
      /\ _direct_drive_tailspeed (heli w') = _direct_drive_tailspeed (heli w))
  /\ (result get_estimated_rotor_speed w' = result get_estimated_rotor_speed w
      /\ result get_desired_rotor_speed w' = result get_desired_rotor_speed w
      /\ result rotor_speed_above_critical w'
         = result rotor_speed_above_critical w
      /\ result tail_type w' = result tail_type w
      /\ result has_flybar w' = result has_flybar w
      /\ result get_phase_angle w' = result get_phase_angle w
      /\ result supports_yaw_passthrough w'
         = result supports_yaw_passthrough w).
Proof.
  intros w'. subst w'.
  unfold ext_gyro_gain_set, modify, after. cbn [snd heli rcout].
  split; [reflexivity|].
  split; [cbn; tauto|].
  unfold get_estimated_rotor_speed, get_desired_rotor_speed,
    rotor_speed_above_critical, tail_type, has_flybar, get_phase_angle,
    supports_yaw_passthrough.
  rewrite !gets_result. cbn. tauto.
Qed.

Lemma world_eta (w : World) :
  {| heli := heli w; rcout := rcout w |} = w.
Proof. destruct w. reflexivity. Qed.

Lemma set_ext_gyro_gain_field_same (s : AP_MotorsHeli_Single) :
  set_ext_gyro_gain_field (_ext_gyro_gain s) s = s.
Proof. destruct s. reflexivity. Qed.

(** X2: how calls of the ext_gyro_gain setter compose.  Of two calls in a
    row only the second counts, the world is the one the second call alone
    would give; and setting the gain to the value the getter has just
    returned changes nothing at all. *)
Theorem ext_gyro_gain_set_compose (pwm1 pwm2 : Z) (w : World) :
  after (ext_gyro_gain_set pwm2) (after (ext_gyro_gain_set pwm1) w)
    = after (ext_gyro_gain_set pwm2) w
  /\ after (ext_gyro_gain_set (result ext_gyro_gain w)) w = w.
Proof.
  split.
  - reflexivity.
  - unfold ext_gyro_gain_set, ext_gyro_gain, modify, after.
    rewrite gets_result. cbn [snd].
    rewrite set_ext_gyro_gain_field_same. apply world_eta.
Qed.

(** X3: the critical-speed comparison is monotone.  If the main rotor is
    reported above critical, it is still reported above critical in any state
    whose estimated speed is at least as high and whose critical speed is at
    most as high. *)
Theorem rotor_speed_above_critical_monotone (w1 w2 : World) :
  result rotor_speed_above_critical w1 = true ->
  result get_estimated_rotor_speed w1 <= result get_estimated_rotor_speed w2 ->
  AP_MotorsHeli_RSC.get_critical_speed (_main_rotor (heli w2))
    <= AP_MotorsHeli_RSC.get_critical_speed (_main_rotor (heli w1)) ->
  result rotor_speed_above_critical w2 = true.
Proof.
  unfold rotor_speed_above_critical, get_estimated_rotor_speed.
  rewrite !gets_result. intros Habove Hest Hcrit.
  apply Z.gtb_lt in Habove. apply Z.gtb_lt. lia.
Qed.

Lemma rotor_speed_above_critical_monotone_witness :
  let fast (est crit : Z) :=
    {| heli :=
         set_main_rotor_field
           {| AP_MotorsHeli_RSC._servo_output_channel :=
                AP_MOTORS_HELI_SINGLE_RSC;
              AP_MotorsHeli_RSC._desired_speed := 1000;
              AP_MotorsHeli_RSC._estimated_speed := est;
              AP_MotorsHeli_RSC._critical_speed := crit;
              AP_MotorsHeli_RSC._ramp := est;
              AP_MotorsHeli_RSC._ramp_increment := 5 |} example_heli;
       rcout := [] |} in
  result rotor_speed_above_critical (fast 501 500) = true
  /\ result rotor_speed_above_critical (fast 800 400) = true.
Proof.
  intros fast.
  assert (H1 : result rotor_speed_above_critical (fast 501 500) = true)
    by reflexivity.
  split; [exact H1|].
  apply (rotor_speed_above_critical_monotone (fast 501 500) (fast 800 400) H1);
    cbn; lia.
Defined.
